(** * depthai_sdk.previews: frame decoders and the mouse click tracker

    A shallow embedding of [depthai_sdk/previews.py]: the static methods of
    [PreviewDecoder], the names of the [Previews] enumeration and the two
    dictionaries of [MouseClickTracker], followed by the properties of the
    decoders and of the tracker.

    Python values are modelled as follows.
    - A numpy array is a nested list of samples ([ndarray]); integer images
      carry [Z] samples, the intermediate disparity image of [depth] carries
      binary64 floats ([PrimFloat.float], the type of Python's [float]).
    - A call that can raise returns an [outcome]; a call that can return
      [None] returns an [option]; a call that mutates the shared manager
      returns the manager it leaves behind as well.
    - [cv2.imdecode], [cv2.applyColorMap], the C library's [tan], the C cast
      behind [astype(np.uint8)] and numpy's array printing are outside of the
      module: they are the fields of the class [External]. *)

From Stdlib Require Import ZArith List Bool.
From Stdlib Require Import Floats.PrimFloat Floats.FloatOps Floats.FloatAxioms Floats.SpecFloat.
From Stdlib Require Import Numbers.Cyclic.Int63.Uint63.
From stdpp Require Import base option gmap strings pretty.

Set Warnings "-inexact-float,-register-all".
#[local] Open Scope Z_scope.

(** ** Python exceptions and results *)

Module Py.

Inductive exn : Set :=
  | AttributeError
  | IndexError
  | TypeError
  | ValueError
  | ZeroDivisionError
  | Cv2Error.

Inductive outcome (A : Type) : Type :=
  | Ok (a : A)
  | Raise (e : exn).
Arguments Ok {A} a.
Arguments Raise {A} e.

Definition bind {A B} (r : outcome A) (k : A -> outcome B) : outcome B :=
  match r with
  | Ok a => k a
  | Raise e => Raise e
  end.

Definition raises {A} (r : outcome A) : bool :=
  match r with
  | Ok _ => false
  | Raise _ => true
  end.

(** [seq[i]] for a Python sequence: a negative index counts from the end,
    an index outside [-len, len) raises IndexError. *)
Definition getitem {A} (l : list A) (i : Z) : outcome A :=
  let n := Z.of_nat (length l) in
  if (0 <=? i) && (i <? n) then
    match nth_error l (Z.to_nat i) with Some a => Ok a | None => Raise IndexError end
  else if (- n <=? i) && (i <? 0) then
    match nth_error l (Z.to_nat (i + n)) with Some a => Ok a | None => Raise IndexError end
  else Raise IndexError.

End Py.
Export Py.

(** [x ← r; k] sequences two calls: an exception of [r] propagates. *)
#[export] Instance outcome_ret : MRet outcome := fun A a => Ok a.
#[export] Instance outcome_bind : MBind outcome := fun A B k r => Py.bind r k.

(** [f <$> r] applies a function that does not raise to the result of [r]. *)
#[export] Instance outcome_fmap : FMap outcome :=
  fun A B f r => Py.bind r (fun a => Ok (f a)).

(** ** numpy arrays *)

Module Np.

(** An array is a scalar (rank 0) or a sequence of arrays of one rank
    less.  numpy arrays are rectangular; the functions below read the
    extent of an axis from the first element on that axis. *)
Inductive ndarray (A : Type) : Type :=
  | Scalar (a : A)
  | Arr (items : list (ndarray A)).
Arguments Scalar {A} a.
Arguments Arr {A} items.

(** [a.shape] *)
Fixpoint shape {A} (a : ndarray A) : list nat :=
  match a with
  | Scalar _ => []
  | Arr items =>
      length items :: match items with
                      | x :: _ => shape x
                      | [] => []
                      end
  end.

(** [a[i]] with an integer index *)
Definition index {A} (a : ndarray A) (i : Z) : outcome (ndarray A) :=
  match a with
  | Scalar _ => Raise IndexError
  | Arr items => getitem items i
  end.

(** [a[::-1]]: the first axis reversed *)
Definition reversed {A} (a : ndarray A) : outcome (ndarray A) :=
  match a with
  | Scalar _ => Raise IndexError
  | Arr items => Ok (Arr (rev items))
  end.

(** [*a]: iteration over the first axis *)
Definition unpack {A} (a : ndarray A) : outcome (list (ndarray A)) :=
  match a with
  | Scalar _ => Raise TypeError
  | Arr items => Ok items
  end.

(** An elementwise operation, as in [a * k] or [a.astype(t)] *)
Fixpoint map {A B} (f : A -> B) (a : ndarray A) : ndarray B :=
  match a with
  | Scalar x => Scalar (f x)
  | Arr items => Arr (List.map (map f) items)
  end.

(** All samples, in storage order *)
Fixpoint samples {A} (a : ndarray A) : list A :=
  match a with
  | Scalar x => [x]
  | Arr items => List.concat (List.map samples items)
  end.

End Np.
Export Np.

(** An image as OpenCV hands it to Python: integer samples, rows first. *)
Definition image : Type := ndarray Z.

(** ** Floating point helpers *)

Module Num.

(** The conversion of an integer sample or extent to binary64 *)
Definition float_of_Z (z : Z) : float :=
  if z <? 0 then PrimFloat.opp (PrimFloat.of_uint63 (Uint63.of_Z (- z)))
  else PrimFloat.of_uint63 (Uint63.of_Z z).

(** Python's [a / b] on floats (an [int] operand is converted first) *)
Definition truediv (a b : float) : outcome float :=
  if PrimFloat.is_zero b then Raise ZeroDivisionError else Ok (PrimFloat.div a b).

(** [math.radians]: multiplication by the double nearest to pi / 180 *)
Definition pi : float := 0x1.921fb54442d18p+1%float.
Definition radians (x : float) : float :=
  PrimFloat.mul x (PrimFloat.div pi 180%float).

End Num.
Export Num.

(** ** What the module takes from OpenCV, numpy and libm *)

Inductive imread_flag : Set :=
| IMREAD_UNCHANGED
| IMREAD_GRAYSCALE
| IMREAD_COLOR.

Definition COLORMAP_JET : Z := 2.
Definition EVENT_LBUTTONUP : Z := 4.

Class External : Type := {
  (** [cv2.imdecode(buf, flag)]: the decoded image, [None] when the buffer
      does not decode, an exception when OpenCV refuses the buffer (as it
      does for an empty one) *)
  imdecode : list Byte.byte -> imread_flag -> outcome (option image);
  (** [cv2.applyColorMap(src, colormap)] *)
  applyColorMap : image -> Z -> outcome image;
  (** the C library's [tan] on doubles *)
  libm_tan : float -> float;
  (** the C conversion of a double to an unsigned 8-bit integer performed by
      [astype(np.uint8)]; its value outside of 0..255 depends on the
      platform *)
  cast_uint8 : float -> Z;
  (** numpy's printing of an array of rank one or more *)
  array_str : image -> string
}.

(** [cv2.flip(src, 1)]: every row reversed; for [None] the result is
    [None]. *)
Definition flip_row {A} (row : ndarray A) : ndarray A :=
  match row with
  | Scalar x => Scalar x
  | Arr cols => Arr (rev cols)
  end.

Definition hflip {A} (a : ndarray A) : ndarray A :=
  match a with
  | Scalar x => Scalar x
  | Arr rows => Arr (List.map flip_row rows)
  end.

Definition cv2_flip (src : option image) : option image :=
  match src with
  | Some f => Some (hflip f)
  | None => None
  end.

(** ** Packets and the shared manager *)

(** A [depthai.ImgFrame] as the decoders use it: the results of its three
    accessors. *)
Record ImgFrame : Type := {
  getData : list Byte.byte;
  getCvFrame : image;
  getFrame : image
}.

(** Modelled from the spec: the class [PreviewManager] of
    [depthai_sdk.managers], whose instance the decoders receive, is not among
    the sources.  Its attributes are those of the shared configuration of
    the specification (low-bandwidth flag, synchronisation flag, baseline,
    field of view, focal length, disparity scale factor, disparity
    multiplier, colour-map selector) and the source of the network input.
    The attributes that the decoders read directly are fields; those they
    read with [getattr] or [hasattr] may be missing, which is [None] here. *)
Record PreviewManager : Type := {
  lowBandwidth : bool;
  sync : bool;
  dispMultiplier : float;
  colorMap : Z;
  nn_source : option string;
  dispScaleFactor : option float;
  baseline : option float;
  fov : option float;
  focal : option float
}.

(** [setattr(manager, "dispScaleFactor", v)] *)
Definition set_dispScaleFactor (m : PreviewManager) (v : float) : PreviewManager :=
  {| lowBandwidth := lowBandwidth m;
     sync := sync m;
     dispMultiplier := dispMultiplier m;
     colorMap := colorMap m;
     nn_source := nn_source m;
     dispScaleFactor := Some v;
     baseline := baseline m;
     fov := fov m;
     focal := focal m |}.

(** [getattr(manager, name, default)], where [manager] may be [None] *)
Definition getattr {A} (manager : option PreviewManager)
    (attr : PreviewManager -> option A) (default : A) : A :=
  match manager with
  | Some m => match attr m with Some v => v | None => default end
  | None => default
  end.

(** ** Previews: the names of the enumeration *)

Module Previews.

Inductive t : Set :=
  | nn_input | color | left | right | rectified_left | rectified_right
  | depth_raw | depth | disparity | disparity_color.

Definition name (p : t) : string :=
  match p with
  | nn_input => "nn_input"
  | color => "color"
  | left => "left"
  | right => "right"
  | rectified_left => "rectified_left"
  | rectified_right => "rectified_right"
  | depth_raw => "depth_raw"
  | depth => "depth"
  | disparity => "disparity"
  | disparity_color => "disparity_color"
  end.

End Previews.

(** ** PreviewDecoder *)

Module PreviewDecoder.
Section Decoders.
Context `{External}.

Definition nn_input (packet : ImgFrame) (manager : option PreviewManager)
    : outcome (option image) :=
  let frame := Some (getCvFrame packet) in
  match manager with
  | Some m =>
      match nn_source m with
      | Some src =>
          if bool_decide (src = Previews.name Previews.rectified_left)
             || bool_decide (src = Previews.name Previews.rectified_right)
          then Ok (cv2_flip frame)
          else Ok frame
      | None => Ok frame
      end
  | None => Ok frame
  end.

Definition color (packet : ImgFrame) (manager : option PreviewManager)
    : outcome (option image) :=
  match manager with
  | Some m =>
      if lowBandwidth m then
        if negb (sync m) then imdecode (getData packet) IMREAD_COLOR
        else Ok (Some (getCvFrame packet))
      else Ok (Some (getCvFrame packet))
  | None => Ok (Some (getCvFrame packet))
  end.

Definition left (packet : ImgFrame) (manager : option PreviewManager)
    : outcome (option image) :=
  match manager with
  | Some m =>
      if lowBandwidth m then
        if negb (sync m) then imdecode (getData packet) IMREAD_GRAYSCALE
        else Ok (Some (getCvFrame packet))
      else Ok (Some (getCvFrame packet))
  | None => Ok (Some (getCvFrame packet))
  end.

Definition right (packet : ImgFrame) (manager : option PreviewManager)
    : outcome (option image) :=
  match manager with
  | Some m =>
      if lowBandwidth m then
        if negb (sync m) then imdecode (getData packet) IMREAD_GRAYSCALE
        else Ok (Some (getCvFrame packet))
      else Ok (Some (getCvFrame packet))
  | None => Ok (Some (getCvFrame packet))
  end.

Definition rectified_left (packet : ImgFrame) (manager : option PreviewManager)
    : outcome (option image) :=
  match manager with
  | Some m =>
      if lowBandwidth m then
        if negb (sync m) then cv2_flip <$> imdecode (getData packet) IMREAD_GRAYSCALE
        else Ok (cv2_flip (Some (getCvFrame packet)))
      else Ok (cv2_flip (Some (getCvFrame packet)))
  | None => Ok (cv2_flip (Some (getCvFrame packet)))
  end.

Definition rectified_right (packet : ImgFrame) (manager : option PreviewManager)
    : outcome (option image) :=
  match manager with
  | Some m =>
      if lowBandwidth m then cv2_flip <$> imdecode (getData packet) IMREAD_GRAYSCALE
      else Ok (cv2_flip (Some (getCvFrame packet)))
  | None => Ok (cv2_flip (Some (getCvFrame packet)))
  end.

Definition depth_raw (packet : ImgFrame) (manager : option PreviewManager) : image :=
  getFrame packet.

Definition disparity_color (disparity : image) (manager : option PreviewManager) : outcome image :=
  applyColorMap disparity
    match manager with
    | Some m => colorMap m
    | None => COLORMAP_JET
    end.

(** [math.tan]: the C function, with the error check of CPython's
    one-argument wrapper (a NaN from a number, or an infinity from a finite
    number, is a ValueError). *)
Definition math_tan (x : float) : outcome float :=
  let r := libm_tan x in
  if PrimFloat.is_nan r && negb (PrimFloat.is_nan x) then Raise ValueError
  else if PrimFloat.is_infinity r && PrimFloat.is_finite x then Raise ValueError
  else Ok r.

(** [depth_raw.shape[1] / (2. * math.tan(math.radians(fov / 2)))] *)
Definition default_focal (depth_raw : image) (fov : float) : outcome float :=
  width ← getitem (shape depth_raw) 1;
  t ← math_tan (radians (PrimFloat.div fov 2%float));
  truediv (float_of_Z (Z.of_nat width)) (PrimFloat.mul 2%float t).

(** The first block of [depth]: the scale factor in use and the manager
    after the block.  The default of the third [getattr] is an argument, so
    it is evaluated whether or not the manager has a [focal]. *)
Definition scale_factor (depth_raw : image) (manager : option PreviewManager)
    : outcome float * option PreviewManager :=
  match manager ≫= dispScaleFactor with
  | Some dispScaleFactor => (Ok dispScaleFactor, manager)
  | None =>
      let baseline := getattr manager baseline 75%float in
      let fov := getattr manager fov 71.86%float in
      match default_focal depth_raw fov with
      | Raise e => (Raise e, manager)
      | Ok default =>
          let focal := getattr manager focal default in
          let dispScaleFactor := PrimFloat.mul baseline focal in
          (Ok dispScaleFactor,
           match manager with
           | Some m => Some (set_dispScaleFactor m dispScaleFactor)
           | None => None
           end)
      end
  end.

(** [dispScaleFactor / depth_raw] under [np.errstate(divide='ignore')]:
    IEEE division sample by sample, nothing is raised. *)
Definition disp_frame (dispScaleFactor : float) (depth_raw : image) : ndarray float :=
  Np.map (fun v => PrimFloat.div dispScaleFactor (float_of_Z v)) depth_raw.

(** [(a * k).astype(np.uint8)] *)
Definition scale_to_uint8 (a : ndarray float) (k : float) : image :=
  Np.map (fun v => cast_uint8 (PrimFloat.mul v k)) a.

Definition depth (depth_raw : image) (manager : option PreviewManager)
    : outcome image * option PreviewManager :=
  match scale_factor depth_raw manager with
  | (Raise e, manager') => (Raise e, manager')
  | (Ok dispScaleFactor, manager') =>
      let disp := disp_frame dispScaleFactor depth_raw in
      match manager' with
      | None => (Raise AttributeError, manager')
      | Some m =>
          (disparity_color (scale_to_uint8 disp (dispMultiplier m)) manager', manager')
      end
  end.

Definition disparity (packet : ImgFrame) (manager : option PreviewManager) : outcome image :=
  raw_frame ←
    match manager with
    | Some m =>
        if lowBandwidth m then imdecode (getData packet) IMREAD_GRAYSCALE
        else Ok (Some (getFrame packet))
    | None => Ok (Some (getFrame packet))
    end;
  match raw_frame with
  | None => Raise TypeError
  | Some raw =>
      Ok (scale_to_uint8 (Np.map float_of_Z raw)
            match manager with
            | Some m => dispMultiplier m
            | None => PrimFloat.div 255%float 96%float
            end)
  end.

End Decoders.
End PreviewDecoder.

(** ** MouseClickTracker *)

Module MouseClickTracker.

(** The two class-level dictionaries: the selected point and the value
    shown for it, per frame name. *)
Record tracker : Type := {
  points : gmap string (Z * Z);
  values : gmap string string
}.

Definition empty : tracker := {| points := ∅; values := ∅ |}.

(** The callback [cb] that [select_point(name)] returns, applied to a mouse
    event; [flags] is not read (nor is the callback's [param]). *)
Definition select_point (name : string) (event x y flags : Z) (self : tracker) : tracker :=
  if bool_decide (event = EVENT_LBUTTONUP) then
    if bool_decide (points self !! name = Some (x, y)) then
      {| points := delete name (points self);
         values := match values self !! name with
                   | Some _ => delete name (values self)
                   | None => values self
                   end |}
    else
      {| points := <[name := (x, y)]> (points self); values := values self |}
  else self.

Section Extract.
Context `{External}.

(** [str(v)] and [format(v, "")] of what indexing an image returns: the
    decimal digits of an integer scalar, numpy's printing of an array. *)
Definition np_str (v : image) : string :=
  match v with
  | Scalar z => pretty z
  | Arr _ => array_str v
  end.

(** [frame[point[1]][point[0]]] *)
Definition sample_at (frame : image) (point : Z * Z) : outcome image :=
  row ← index frame (snd point);
  index row (fst point).

(** [format] of the pattern "R:{},G:{},B:{}" with the unpacked [args]:
    three arguments are read, further ones are ignored, a missing one is
    an IndexError. *)
Definition format_rgb (args : list image) : outcome string :=
  match args with
  | r :: g :: b :: _ =>
      Ok ("R:" +:+ np_str r +:+ ",G:" +:+ np_str g +:+ ",B:" +:+ np_str b)
  | _ => Raise IndexError
  end.

(** The string that [extract_value] assigns for a selected point *)
Definition format_value (name : string) (frame : image) (point : Z * Z) : outcome string :=
  if bool_decide (name = Previews.name Previews.depth_raw)
     || bool_decide (name = Previews.name Previews.depth) then
    v ← sample_at frame point; mret (np_str v +:+ "mm")
  else if bool_decide (name = Previews.name Previews.disparity_color)
          || bool_decide (name = Previews.name Previews.disparity) then
    v ← sample_at frame point; mret (np_str v +:+ "px")
  else if bool_decide (length (shape frame) = 3%nat) then
    v ← sample_at frame point;
    channels ← reversed v;
    args ← unpack channels;
    format_rgb args
  else if bool_decide (length (shape frame) = 2%nat) then
    v ← sample_at frame point; mret ("Gray:" +:+ np_str v)
  else
    v ← sample_at frame point; mret (np_str v).

(** [extract_value(name, frame)]: the tracker after the call, or the
    exception raised; the dictionaries are assigned last, so a call that
    raises leaves them as they were. *)
Definition extract_value (name : string) (frame : image) (self : tracker) : outcome tracker :=
  match points self !! name with
  | Some point =>
      s ← format_value name frame point;
      mret {| points := points self; values := <[name := s]> (values self) |}
  | None => Ok self
  end.

(** The dictionaries after a call of [extract_value], raised or not *)
Definition after_extract (name : string) (frame : image) (self : tracker) : tracker :=
  match extract_value name frame self with
  | Ok self' => self'
  | Raise _ => self
  end.

End Extract.
End MouseClickTracker.

(** ** A concrete instance of the external functions

    The theorems below hold for every instance of [External].  The examples
    are evaluated on this one: a codec that refuses an empty buffer, accepts
    a buffer opening with the JPEG start-of-image marker and returns the
    rest as one row, a grey ramp
    for the colour map, a short series for the tangent, a saturating cast,
    and a bracketed listing for array printing. *)

Module Sample.

Definition byte_value (b : Byte.byte) : Z := Z.of_N (Byte.to_N b).

Definition marker_codec (buf : list Byte.byte) (flag : imread_flag)
    : outcome (option image) :=
  match buf with
  | [] => Raise Cv2Error
  | Byte.xff :: Byte.xd8 :: payload =>
      Ok (Some (Arr [Arr (List.map (fun b => Scalar (byte_value b)) payload)]))
  | _ => Ok None
  end.

Fixpoint grey_ramp (a : image) : image :=
  match a with
  | Scalar v => Arr [Scalar v; Scalar v; Scalar v]
  | Arr items => Arr (List.map grey_ramp items)
  end.

Definition grey_map (src : image) (colormap : Z) : outcome image :=
  if (0 <=? colormap) && (colormap <=? 21) then Ok (grey_ramp src) else Raise Cv2Error.

Definition series_tan (x : float) : float :=
  let x2 := PrimFloat.mul x x in
  PrimFloat.mul x
    (PrimFloat.add 1%float
       (PrimFloat.mul x2
          (PrimFloat.add (PrimFloat.div 1%float 3%float)
             (PrimFloat.mul x2
                (PrimFloat.add (PrimFloat.div 2%float 15%float)
                   (PrimFloat.mul x2 (PrimFloat.div 17%float 315%float))))))).

Definition saturating_cast (v : float) : Z :=
  fold_left (fun acc k => if PrimFloat.leb (float_of_Z k) v then k else acc)
    (List.map Z.of_nat (seq 1 255)) 0.

Definition listing (a : image) : string :=
  "[" +:+ String.concat " " (List.map pretty (samples a)) +:+ "]".

Definition external : External := {|
  imdecode := marker_codec;
  applyColorMap := grey_map;
  libm_tan := series_tan;
  cast_uint8 := saturating_cast;
  array_str := listing
|}.

(** A manager in low-bandwidth mode with synchronisation on *)
Definition manager_lb_sync : PreviewManager := {|
  lowBandwidth := true;
  sync := true;
  dispMultiplier := PrimFloat.div 255%float 96%float;
  colorMap := COLORMAP_JET;
  nn_source := None;
  dispScaleFactor := None;
  baseline := None;
  fov := None;
  focal := None
|}.

(** A manager in low-bandwidth mode with synchronisation off *)
Definition manager_lb : PreviewManager := {|
  lowBandwidth := true;
  sync := false;
  dispMultiplier := PrimFloat.div 255%float 96%float;
  colorMap := COLORMAP_JET;
  nn_source := None;
  dispScaleFactor := None;
  baseline := None;
  fov := None;
  focal := None
|}.

(** A 2 x 3 grey image *)
Definition grey_2x3 : image :=
  Arr [Arr [Scalar 7; Scalar 9; Scalar 11]; Arr [Scalar 0; Scalar 200; Scalar 255]].

(** A 1 x 2 colour image, channels stored blue, green, red *)
Definition bgr_1x2 : image :=
  Arr [Arr [Arr [Scalar 10; Scalar 20; Scalar 30]; Arr [Scalar 1; Scalar 2; Scalar 3]]].

(** A packet of the synchronised pipeline: its payload is the raw pixels,
    not a compressed image. *)
Definition raw_packet : ImgFrame := {|
  getData := [Byte.x07; Byte.x09; Byte.x0b; Byte.x00; Byte.xc8; Byte.xff];
  getCvFrame := grey_2x3;
  getFrame := grey_2x3
|}.

(** A packet of the encoder: a compressed payload, and the frame the
    accessors make of it. *)
Definition encoded_packet : ImgFrame := {|
  getData := [Byte.xff; Byte.xd8; Byte.x05; Byte.x06];
  getCvFrame := Arr [Arr [Scalar 255; Scalar 216; Scalar 5; Scalar 6]];
  getFrame := Arr [Arr [Scalar 255; Scalar 216; Scalar 5; Scalar 6]]
|}.

End Sample.

(** ** A manager with calibration data *)

Module Calibration.

(** Baseline, field of view and focal length are set, as after the
    calibration of the device is read; no scale factor is cached. *)
Definition calibrated (fovv : float) (cm : Z) : PreviewManager := {|
  lowBandwidth := false;
  sync := false;
  dispMultiplier := PrimFloat.div 255%float 96%float;
  colorMap := cm;
  nn_source := None;
  dispScaleFactor := None;
  baseline := Some 75%float;
  fov := Some fovv;
  focal := Some 400%float
|}.

End Calibration.

(** ** The conditions and values the specification names *)

Module Spec.

(** The condition of the specification for the compressed branch of [color],
    [left] and [right]: a manager is supplied, it is in low-bandwidth mode
    and it does not synchronise. *)
Definition compressed_requested (manager : option PreviewManager) : bool :=
  match manager with
  | Some m => lowBandwidth m && negb (sync m)
  | None => false
  end.

(** The multiplier of [disparity]: the manager's, 255/96 without one. *)
Definition disparity_multiplier (manager : option PreviewManager) : float :=
  match manager with
  | Some m => dispMultiplier m
  | None => PrimFloat.div 255%float 96%float
  end.

(** One sample of the disparity image of [depth] and [disparity]: scaled by
    the multiplier and cast to 8 bits. *)
Definition scaled_uint8 `{External} (k : float) (v : float) : Z :=
  cast_uint8 (PrimFloat.mul v k).

(** Two managers that agree on every attribute but [dispScaleFactor] *)
Definition same_except_scale (m m' : PreviewManager) : Prop :=
  lowBandwidth m' = lowBandwidth m
  /\ sync m' = sync m
  /\ dispMultiplier m' = dispMultiplier m
  /\ colorMap m' = colorMap m
  /\ nn_source m' = nn_source m
  /\ baseline m' = baseline m
  /\ fov m' = fov m
  /\ focal m' = focal m.

(** The 8-bit disparity image that [depth] colours, for the scale factor
    [sf] and the multiplier [k]: sample by sample, [sf / v] scaled by [k]
    and cast. *)
Definition depth_disparity `{External} (sf k : float) (depth_raw : image) : image :=
  Np.map (fun v => scaled_uint8 k (PrimFloat.div sf (float_of_Z v))) depth_raw.

End Spec.
Export Spec.

(** ** Runs of the tracker *)

Module TrackerRuns.
Import MouseClickTracker.

(** The frame kinds whose value is shown in millimetres, and in pixels *)
Definition depth_kind (name : string) : Prop :=
  name = Previews.name Previews.depth_raw \/ name = Previews.name Previews.depth.

Definition disparity_kind (name : string) : Prop :=
  name = Previews.name Previews.disparity_color \/ name = Previews.name Previews.disparity.

(** The tracker after a call of [extract_value] that stores [s] for [name] *)
Definition stored (name s : string) (self : tracker) : tracker :=
  {| points := points self; values := <[name := s]> (values self) |}.

(** A sequence of calls of [extract_value], each with its name and frame *)
Fixpoint extract_all `{External} (calls : list (string * image)) (self : tracker) : tracker :=
  match calls with
  | [] => self
  | (name, frame) :: rest => extract_all rest (after_extract name frame self)
  end.

(** The states of the tracker that mouse events and calls of
    [extract_value] lead to from the two empty dictionaries. *)
Inductive reachable `{External} : tracker -> Prop :=
| reachable_empty : reachable empty
| reachable_click self name event x y flags :
    reachable self -> reachable (select_point name event x y flags self)
| reachable_extract self name frame :
    reachable self -> reachable (after_extract name frame self).

(** One interaction with the tracker: a mouse event delivered to the
    handler of a name, or a call of [extract_value]. *)
Inductive action : Type :=
| Click (name : string) (event x y flags : Z)
| Extract (name : string) (frame : image).

Definition perform `{External} (a : action) (self : tracker) : tracker :=
  match a with
  | Click name event x y flags => select_point name event x y flags self
  | Extract name frame => after_extract name frame self
  end.

(** The tracker after a sequence of interactions, starting from the two
    empty dictionaries *)
Definition run `{External} (trace : list action) : tracker :=
  fold_left (fun self a => perform a self) trace empty.

End TrackerRuns.
Export TrackerRuns.

(** * Properties *)

(** ** Arrays *)

Section NdarrayInduction.
Context {A : Type} (P : ndarray A -> Prop).
Hypothesis scalar_case : forall x, P (Scalar x).
Hypothesis arr_case : forall items, Forall P items -> P (Arr items).

  (** Induction over the nesting of an array: the elements of [Arr items]
      all satisfy the property. *)
Fixpoint ndarray_nested_ind (a : ndarray A) : P a :=
    match a with
    | Scalar x => scalar_case x
    | Arr items =>
        arr_case items
          ((fix all (l : list (ndarray A)) : Forall P l :=
              match l with
              | [] => List.Forall_nil P
              | x :: l' => List.Forall_cons P x l' (ndarray_nested_ind x) (all l')
              end) items)
    end.
End NdarrayInduction.

Lemma nd_map_shape {A B} (f : A -> B) (a : ndarray A) :
  shape (Np.map f a) = shape a.
Proof.
  induction a as [x | items IH] using ndarray_nested_ind; [reflexivity |].
  cbn [Np.map shape]. rewrite length_map. f_equal.
  destruct IH as [| x items Hx _]; [reflexivity |]. exact Hx.
Qed.

Lemma nd_map_samples {A B} (f : A -> B) (a : ndarray A) :
  samples (Np.map f a) = List.map f (samples a).
Proof.
  induction a as [x | items IH] using ndarray_nested_ind; [reflexivity |].
  cbn [Np.map samples]. rewrite List.concat_map, !List.map_map. f_equal.
  induction IH as [| x items Hx _ IHitems]; [reflexivity |].
  cbn [List.map]. now rewrite Hx, IHitems.
Qed.

Lemma nd_map_map {A B C} (f : A -> B) (g : B -> C) (a : ndarray A) :
  Np.map g (Np.map f a) = Np.map (fun x => g (f x)) a.
Proof.
  induction a as [x | items IH] using ndarray_nested_ind; [reflexivity |].
  cbn [Np.map]. rewrite List.map_map. f_equal.
  induction IH as [| x items Hx _ IHitems]; [reflexivity |].
  cbn [List.map]. now rewrite Hx, IHitems.
Qed.

(** Mirroring twice gives the image back, so the mirror loses nothing. *)
Lemma flip_row_involutive {A} (row : ndarray A) : flip_row (flip_row row) = row.
Proof. destruct row as [x | cols]; [reflexivity |]. cbn. now rewrite rev_involutive. Qed.

Lemma hflip_involutive {A} (a : ndarray A) : hflip (hflip a) = a.
Proof.
  destruct a as [x | rows]; [reflexivity |]. cbn. f_equal.
  rewrite List.map_map. induction rows as [| row rows IH]; [reflexivity |].
  cbn [List.map]. now rewrite flip_row_involutive, IH.
Qed.

Lemma hflip_injective {A} (a b : ndarray A) : hflip a = hflip b -> a = b.
Proof. intros Heq. rewrite <- (hflip_involutive a), Heq. apply hflip_involutive. Qed.

(** ** The decoders of camera frames *)

Module DecoderFacts.
Import PreviewDecoder.

Lemma compressed_requested_iff manager :
  compressed_requested manager = true <->
  exists m, manager = Some m /\ lowBandwidth m = true /\ sync m = false.
Proof.
  unfold compressed_requested. split.
  - destruct manager as [m |]; [| discriminate].
    intros [Hlb Hsync%negb_true_iff]%andb_true_iff. eauto.
  - intros (m & -> & -> & ->). reflexivity.
Qed.

Section WithExternal.
Context `{External}.

(** X22: [rectified_left] returns the mirror of what [left] returns, for
    every packet and manager: [None] when [left] returns [None], the
    exception of [left] when [left] raises. *)
Lemma rectified_left_mirrors_left packet manager :
  rectified_left packet manager = cv2_flip <$> left packet manager.
Proof.
  unfold rectified_left, left.
  destruct manager as [m |]; [| reflexivity].
  destruct (lowBandwidth m), (sync m); reflexivity.
Qed.

(** X23: [rectified_right] returns the mirror of what [right] returns
    except under a manager that is in low-bandwidth mode and
    synchronises. *)
Lemma rectified_right_mirrors_right packet manager :
  (forall m, manager = Some m -> lowBandwidth m = true -> sync m = false) ->
  rectified_right packet manager = cv2_flip <$> right packet manager.
Proof.
  intros Hsync. unfold rectified_right, right.
  destruct manager as [m |]; [| reflexivity].
  destruct (lowBandwidth m) eqn:Hlb; [| reflexivity].
  rewrite (Hsync m eq_refl Hlb). reflexivity.
Qed.

(** Under such a manager [rectified_right] decodes the payload while
    [right] returns the native frame. *)
Lemma rectified_right_ignores_sync packet m :
  lowBandwidth m = true -> sync m = true ->
  rectified_right packet (Some m) = cv2_flip <$> imdecode (getData packet) IMREAD_GRAYSCALE
  /\ cv2_flip <$> right packet (Some m) = Ok (Some (hflip (getCvFrame packet))).
Proof.
  intros Hlb Hsync. unfold rectified_right, right. rewrite Hlb, Hsync. split; reflexivity.
Qed.

(** C2: [color], [left] and [right] decode the payload (as a colour image
    for [color], as a grey image for [left] and [right]) exactly when a
    manager is supplied whose low-bandwidth flag is set and whose
    synchronisation flag is unset; in every other case they return the
    native frame of the packet. *)
Theorem plain_decoders_branch packet manager :
  (compressed_requested manager = true <->
     exists m, manager = Some m /\ lowBandwidth m = true /\ sync m = false)
  /\ color packet manager =
       (if compressed_requested manager then imdecode (getData packet) IMREAD_COLOR
        else Ok (Some (getCvFrame packet)))
  /\ left packet manager =
       (if compressed_requested manager then imdecode (getData packet) IMREAD_GRAYSCALE
        else Ok (Some (getCvFrame packet)))
  /\ right packet manager =
       (if compressed_requested manager then imdecode (getData packet) IMREAD_GRAYSCALE
        else Ok (Some (getCvFrame packet))).
Proof.
  split; [apply compressed_requested_iff |].
  unfold color, left, right, compressed_requested.
  destruct manager as [m |]; [| repeat split].
  destruct (lowBandwidth m), (sync m); repeat split.
Qed.

(** C3: [rectified_right] chooses its branch by the low-bandwidth flag
    alone, [rectified_left] by the low-bandwidth flag and the unset
    synchronisation flag; under a manager with both flags set the first
    decodes the payload and the second mirrors the native frame. *)
Theorem rectified_branch_asymmetry :
  (forall packet m,
      rectified_right packet (Some m) =
        (if lowBandwidth m then cv2_flip <$> imdecode (getData packet) IMREAD_GRAYSCALE
         else Ok (cv2_flip (Some (getCvFrame packet)))))
  /\ (forall packet m,
      rectified_left packet (Some m) =
        (if lowBandwidth m && negb (sync m)
         then cv2_flip <$> imdecode (getData packet) IMREAD_GRAYSCALE
         else Ok (cv2_flip (Some (getCvFrame packet)))))
  /\ (exists m, lowBandwidth m = true /\ sync m = true /\
        forall packet,
          rectified_right packet (Some m) =
            cv2_flip <$> imdecode (getData packet) IMREAD_GRAYSCALE
          /\ rectified_left packet (Some m) = Ok (cv2_flip (Some (getCvFrame packet)))).
Proof.
  split; [| split].
  - intros packet m. unfold rectified_right. destruct (lowBandwidth m); reflexivity.
  - intros packet m. unfold rectified_left.
    destruct (lowBandwidth m), (sync m); reflexivity.
  - exists Sample.manager_lb_sync. repeat split.
Qed.

End WithExternal.

(** C1 (not met by [rectified_right]): the claim asks that [rectified_right]
    return the mirror of what [right] returns for the same packet and
    manager.  Under a manager with the low-bandwidth and the synchronisation
    flag set, [right] returns the native frame, whose mirror is an image,
    while [rectified_right] decodes the payload: it returns [None] when the
    payload does not decode, raises when the decoder raises, and returns
    the mirror of the decoded image otherwise, which is the mirror of the
    native frame only when the two images are equal. *)
Theorem rectified_right_differs_under_sync `{External} packet m :
  lowBandwidth m = true -> sync m = true ->
  cv2_flip <$> right packet (Some m) = Ok (Some (hflip (getCvFrame packet)))
  /\ rectified_right packet (Some m)
     = cv2_flip <$> imdecode (getData packet) IMREAD_GRAYSCALE
  /\ (imdecode (getData packet) IMREAD_GRAYSCALE = Ok None ->
      rectified_right packet (Some m) = Ok None)
  /\ (forall e, imdecode (getData packet) IMREAD_GRAYSCALE = Raise e ->
      rectified_right packet (Some m) = Raise e)
  /\ (forall decoded,
        imdecode (getData packet) IMREAD_GRAYSCALE = Ok (Some decoded) ->
        rectified_right packet (Some m) = Ok (Some (hflip decoded))
        /\ (rectified_right packet (Some m) = cv2_flip <$> right packet (Some m) ->
            decoded = getCvFrame packet)).
Proof.
  intros Hlb Hsync.
  assert (Hright : cv2_flip <$> right packet (Some m) = Ok (Some (hflip (getCvFrame packet)))).
  { unfold right. now rewrite Hlb, Hsync. }
  assert (Hrr : rectified_right packet (Some m)
                = cv2_flip <$> imdecode (getData packet) IMREAD_GRAYSCALE).
  { unfold rectified_right. now rewrite Hlb. }
  split; [exact Hright |]. split; [exact Hrr |].
  rewrite Hright, Hrr. split; [| split].
  - now intros ->.
  - now intros e ->.
  - intros decoded ->. split; [reflexivity |].
    cbn. intros [= Heq]. now apply hflip_injective.
Qed.

#[local] Existing Instance Sample.external.

(** The raw sample packet, whose payload the sample codec does not decode *)
Lemma rectified_right_differs_under_sync_witness :
  cv2_flip <$> right Sample.raw_packet (Some Sample.manager_lb_sync)
  = Ok (Some (Arr [Arr [Scalar 11; Scalar 9; Scalar 7];
                   Arr [Scalar 255; Scalar 200; Scalar 0]]))
  /\ rectified_right Sample.raw_packet (Some Sample.manager_lb_sync) = Ok None.
Proof.
  pose proof (rectified_right_differs_under_sync Sample.raw_packet Sample.manager_lb_sync
                eq_refl eq_refl) as (Hright & _ & Hnone & _).
  split; [exact Hright | apply Hnone; reflexivity].
Defined.

End DecoderFacts.

(** ** The disparity decoder *)

Module DisparityFacts.
Import PreviewDecoder.

Section WithExternal.
Context `{External}.

Lemma scale_to_uint8_map (raw : image) (k : float) :
  scale_to_uint8 (Np.map float_of_Z raw) k
  = Np.map (fun v => scaled_uint8 k (float_of_Z v)) raw.
Proof. unfold scale_to_uint8. apply nd_map_map. Qed.

(** C5: [disparity] takes the grey image of the packet (the decoded payload
    under a manager in low-bandwidth mode, the raw frame otherwise),
    multiplies every sample by the manager's disparity multiplier (by
    255/96 = 2.65625 when no manager is supplied) and casts it to an
    unsigned 8-bit integer. *)
Theorem disparity_scales_grey packet manager :
  disparity_multiplier None = 2.65625%float
  /\ ((manager = None \/ exists m, manager = Some m /\ lowBandwidth m = false) ->
      disparity packet manager =
        Ok (Np.map (fun v => scaled_uint8 (disparity_multiplier manager) (float_of_Z v))
              (getFrame packet)))
  /\ (forall m raw,
        manager = Some m -> lowBandwidth m = true ->
        imdecode (getData packet) IMREAD_GRAYSCALE = Ok (Some raw) ->
        disparity packet manager =
          Ok (Np.map (fun v => scaled_uint8 (disparity_multiplier manager) (float_of_Z v)) raw)).
Proof.
  split; [reflexivity | split].
  - intros [-> | (m & -> & Hlb)]; unfold disparity; [| rewrite Hlb];
      cbn [disparity_multiplier mbind outcome_bind Py.bind];
      now rewrite scale_to_uint8_map.
  - intros m raw -> Hlb Hdec. unfold disparity. rewrite Hlb, Hdec.
    cbn [disparity_multiplier mbind outcome_bind Py.bind].
    now rewrite scale_to_uint8_map.
Qed.

(** The samples of the result, in storage order *)
Lemma disparity_samples packet manager out :
  disparity packet manager = Ok out ->
  exists raw,
    samples out
    = List.map (fun v => scaled_uint8 (disparity_multiplier manager) (float_of_Z v)) (samples raw)
    /\ shape out = shape raw.
Proof.
  unfold disparity. fold (disparity_multiplier manager).
  destruct manager as [m |];
    [destruct (lowBandwidth m);
       [destruct (imdecode (getData packet) IMREAD_GRAYSCALE) as [[raw |] | e] |] |];
    cbn [mbind outcome_bind Py.bind]; try discriminate;
    intros [= <-]; eexists; rewrite scale_to_uint8_map;
    (split; [apply nd_map_samples | apply nd_map_shape]).
Qed.

End WithExternal.

#[local] Existing Instance Sample.external.

(** The compressed branch on the encoded sample packet *)
Lemma disparity_scales_grey_witness :
  disparity Sample.encoded_packet (Some Sample.manager_lb)
  = Ok (Np.map (fun v => scaled_uint8 2.65625%float (float_of_Z v))
          (Arr [Arr [Scalar 5; Scalar 6]])).
Proof.
  apply (proj2 (proj2 (disparity_scales_grey Sample.encoded_packet (Some Sample.manager_lb)))
           Sample.manager_lb (Arr [Arr [Scalar 5; Scalar 6]])); reflexivity.
Defined.

End DisparityFacts.

(** ** The depth decoder *)

Module DepthFacts.
Import PreviewDecoder.

(** Division by a zero sample gives an infinity or a NaN, whatever the
    scale factor. *)
Lemma div_zero_not_finite (x : float) :
  PrimFloat.is_finite (PrimFloat.div x (float_of_Z 0)) = false.
Proof.
  change (float_of_Z 0) with 0%float.
  unfold is_finite, is_nan, is_infinity.
  rewrite !FloatAxioms.eqb_spec, FloatAxioms.abs_spec, FloatAxioms.div_spec.
  change (Prim2SF 0%float) with (S754_zero false).
  change (Prim2SF infinity) with (S754_infinity false).
  destruct (Prim2SF x) as [[] | [] | | [] m e]; reflexivity.
Qed.

Lemma set_dispScaleFactor_same m v : same_except_scale m (set_dispScaleFactor m v).
Proof. repeat split. Qed.

Lemma same_except_scale_refl m : same_except_scale m m.
Proof. repeat split. Qed.

Section WithExternal.
Context `{External}.

Lemma shape_width (raw : image) h w rest :
  shape raw = h :: w :: rest -> getitem (shape raw) 1 = Ok w.
Proof.
  intros ->. unfold getitem. cbn [length nth_error Z.to_nat Pos.to_nat Pos.iter_op].
  replace (1 <? Z.of_nat (S (S (length rest)))) with true by (symmetry; apply Z.ltb_lt; lia).
  reflexivity.
Qed.

(** The default focal length: the width of the frame over twice the tangent
    of half the field of view. *)
Lemma default_focal_value (raw : image) fovv h w rest t :
  shape raw = h :: w :: rest ->
  math_tan (radians (PrimFloat.div fovv 2%float)) = Ok t ->
  PrimFloat.is_zero (PrimFloat.mul 2%float t) = false ->
  default_focal raw fovv
  = Ok (PrimFloat.div (float_of_Z (Z.of_nat w)) (PrimFloat.mul 2%float t)).
Proof.
  intros Hshape Htan Hnz. unfold default_focal.
  rewrite (shape_width _ _ _ _ Hshape). cbn [mbind outcome_bind Py.bind].
  rewrite Htan. cbn [mbind outcome_bind Py.bind]. unfold truediv. now rewrite Hnz.
Qed.

Lemma scale_factor_cached raw m sf :
  dispScaleFactor m = Some sf -> scale_factor raw (Some m) = (Ok sf, Some m).
Proof. intros Hsf. unfold scale_factor. cbn [mbind option_bind]. now rewrite Hsf. Qed.

Lemma scale_factor_first raw m fd :
  dispScaleFactor m = None ->
  default_focal raw (default 71.86%float (fov m)) = Ok fd ->
  scale_factor raw (Some m)
  = (Ok (PrimFloat.mul (default 75%float (baseline m)) (default fd (focal m))),
     Some (set_dispScaleFactor m
             (PrimFloat.mul (default 75%float (baseline m)) (default fd (focal m))))).
Proof.
  intros Hsf Hfd. unfold scale_factor. cbn [mbind option_bind]. rewrite Hsf.
  unfold getattr.
  replace (match fov m with Some v => v | None => 71.86%float end)
    with (default 71.86%float (fov m)) by (now destruct (fov m)).
  rewrite Hfd. now destruct (baseline m), (focal m).
Qed.

(** Whatever [depth] does, the manager it leaves differs from the one it
    received in [dispScaleFactor] at most. *)
Lemma scale_factor_frame raw m :
  exists m', snd (scale_factor raw (Some m)) = Some m' /\ same_except_scale m m'.
Proof.
  unfold scale_factor. cbn [mbind option_bind].
  destruct (dispScaleFactor m) as [sf |].
  - exists m. split; [reflexivity | apply same_except_scale_refl].
  - destruct (default_focal raw _) as [fd | e].
    + eexists. split; [reflexivity | apply set_dispScaleFactor_same].
    + exists m. split; [reflexivity | apply same_except_scale_refl].
Qed.

Lemma depth_manager raw manager :
  snd (depth raw manager) = snd (scale_factor raw manager).
Proof.
  unfold depth. destruct (scale_factor raw manager) as [[sf | e] [m' |]]; reflexivity.
Qed.

Lemma depth_frame raw m :
  exists m', snd (depth raw (Some m)) = Some m' /\ same_except_scale m m'.
Proof. rewrite depth_manager. apply scale_factor_frame. Qed.

(** [depth] once the scale factor is known *)
Lemma depth_with_scale raw m sf m' :
  scale_factor raw (Some m) = (Ok sf, Some m') ->
  same_except_scale m m' ->
  depth raw (Some m)
  = (applyColorMap (depth_disparity sf (dispMultiplier m) raw) (colorMap m), Some m').
Proof.
  intros Hsf (_ & _ & Hk & Hcm & _). unfold depth. rewrite Hsf.
  unfold disparity_color, scale_to_uint8, disp_frame, depth_disparity.
  rewrite nd_map_map, Hk, Hcm. reflexivity.
Qed.

Lemma depth_cached raw m sf :
  dispScaleFactor m = Some sf ->
  depth raw (Some m)
  = (applyColorMap (depth_disparity sf (dispMultiplier m) raw) (colorMap m), Some m).
Proof.
  intros Hsf. apply depth_with_scale; [now apply scale_factor_cached |].
  apply same_except_scale_refl.
Qed.

(** Without a manager [depth] raises in every case, and at the read of the
    multiplier once the scale factor is computed. *)
Lemma depth_None_raises raw : raises (fst (depth raw None)) = true.
Proof.
  unfold depth, scale_factor. cbn [mbind option_bind getattr].
  destruct (default_focal raw _); reflexivity.
Qed.

(** C4: called with a manager that has no cached scale factor, [depth]
    computes the scale factor as baseline times focal length (the baseline
    defaulting to 75, the focal length to the frame width over twice the
    tangent of half the field of view, the field of view to 71.86 degrees)
    and stores it on the manager; a later call with that manager uses the
    stored value, whatever the frame, and leaves the manager as it is; and
    no call of [depth] changes an attribute other than [dispScaleFactor]. *)
Theorem depth_caches_scale_factor raw m h w rest t :
  dispScaleFactor m = None ->
  shape raw = h :: w :: rest ->
  math_tan (radians (PrimFloat.div (default 71.86%float (fov m)) 2%float)) = Ok t ->
  PrimFloat.is_zero (PrimFloat.mul 2%float t) = false ->
  let focal_default := PrimFloat.div (float_of_Z (Z.of_nat w)) (PrimFloat.mul 2%float t) in
  let sf := PrimFloat.mul (default 75%float (baseline m)) (default focal_default (focal m)) in
  let m1 := set_dispScaleFactor m sf in
  snd (depth raw (Some m)) = Some m1
  /\ dispScaleFactor m1 = Some sf
  /\ fst (depth raw (Some m))
     = applyColorMap (depth_disparity sf (dispMultiplier m) raw) (colorMap m)
  /\ (forall raw',
        depth raw' (Some m1)
        = (applyColorMap (depth_disparity sf (dispMultiplier m) raw') (colorMap m), Some m1))
  /\ (forall raw2 m2,
        exists m2', snd (depth raw2 (Some m2)) = Some m2' /\ same_except_scale m2 m2').
Proof.
  intros Hnone Hshape Htan Hnz focal_default sf m1.
  pose proof (default_focal_value raw _ h w rest t Hshape Htan Hnz) as Hfd.
  pose proof (scale_factor_first raw m focal_default Hnone Hfd) as Hsf.
  fold sf in Hsf. fold m1 in Hsf.
  pose proof (depth_with_scale raw m sf m1 Hsf (set_dispScaleFactor_same m sf)) as Hdepth.
  split; [now rewrite Hdepth |].
  split; [reflexivity |].
  split; [now rewrite Hdepth |].
  split; [| intros raw2 m2; apply depth_frame].
  intros raw'. apply (depth_cached raw' m1 sf). reflexivity.
Qed.

(** C9: for a raw depth frame with samples equal to 0 and a manager for
    which the scale factor is available, [depth] does not raise at the
    division: a zero sample gives a non-finite quotient, that quotient is
    scaled by the multiplier and cast to 8 bits like every other sample, and
    the result of [depth] is the colour map applied to that image. *)
Theorem depth_tolerates_zero_samples raw m sf m' out :
  In 0 (samples raw) ->
  scale_factor raw (Some m) = (Ok sf, m') ->
  applyColorMap (depth_disparity sf (dispMultiplier m) raw) (colorMap m) = Ok out ->
  fst (depth raw (Some m)) = Ok out
  /\ PrimFloat.is_finite (PrimFloat.div sf (float_of_Z 0)) = false
  /\ In (scaled_uint8 (dispMultiplier m) (PrimFloat.div sf (float_of_Z 0)))
        (samples (depth_disparity sf (dispMultiplier m) raw)).
Proof.
  intros Hzero Hsf Hcolor.
  destruct (scale_factor_frame raw m) as (m1 & Hm1 & Hsame).
  rewrite Hsf in Hm1. cbn [snd] in Hm1. subst m'.
  split; [| split].
  - rewrite (depth_with_scale raw m sf m1 Hsf Hsame). exact Hcolor.
  - apply div_zero_not_finite.
  - unfold depth_disparity. rewrite nd_map_samples.
    apply (in_map (fun v => scaled_uint8 (dispMultiplier m) (PrimFloat.div sf (float_of_Z v)))
             (samples raw) 0 Hzero).
Qed.

(** C10: without a manager [depth] raises an AttributeError for every frame
    with a width, at the read of the multiplier (the default scale factor
    is computed first); the other decoders accept a missing manager. *)
Theorem depth_requires_manager raw h w rest t :
  shape raw = h :: w :: rest ->
  math_tan (radians (PrimFloat.div 71.86%float 2%float)) = Ok t ->
  PrimFloat.is_zero (PrimFloat.mul 2%float t) = false ->
  depth raw None = (Raise AttributeError, None)
  /\ (forall packet,
        nn_input packet None = Ok (Some (getCvFrame packet))
        /\ color packet None = Ok (Some (getCvFrame packet))
        /\ left packet None = Ok (Some (getCvFrame packet))
        /\ right packet None = Ok (Some (getCvFrame packet))
        /\ rectified_left packet None = Ok (Some (hflip (getCvFrame packet)))
        /\ rectified_right packet None = Ok (Some (hflip (getCvFrame packet)))
        /\ depth_raw packet None = getFrame packet
        /\ raises (disparity packet None) = false)
  /\ (forall d, disparity_color d None = applyColorMap d COLORMAP_JET).
Proof.
  intros Hshape Htan Hnz. split; [| split].
  - unfold depth, scale_factor. cbn [mbind option_bind getattr].
    now rewrite (default_focal_value raw 71.86%float h w rest t Hshape Htan Hnz).
  - intros packet. repeat split.
  - reflexivity.
Qed.

End WithExternal.

#[local] Existing Instance Sample.external.

(** The first call on the 2 x 3 image stores 75 times the default focal length. *)
Lemma depth_caches_scale_factor_witness :
  snd (depth Sample.grey_2x3 (Some Sample.manager_lb))
  = Some (set_dispScaleFactor Sample.manager_lb 155.32508668169447%float).
Proof.
  apply (depth_caches_scale_factor Sample.grey_2x3 Sample.manager_lb 2%nat 3%nat []
           (Sample.series_tan (radians (PrimFloat.div 71.86%float 2%float))));
    reflexivity.
Defined.

(** The 2 x 3 image has a zero sample; [depth] returns the coloured image. *)
Lemma depth_tolerates_zero_samples_witness :
  fst (depth Sample.grey_2x3 (Some Sample.manager_lb))
  = Ok (Arr [Arr [Arr [Scalar 58; Scalar 58; Scalar 58];
                  Arr [Scalar 45; Scalar 45; Scalar 45];
                  Arr [Scalar 37; Scalar 37; Scalar 37]];
             Arr [Arr [Scalar 255; Scalar 255; Scalar 255];
                  Arr [Scalar 2; Scalar 2; Scalar 2];
                  Arr [Scalar 1; Scalar 1; Scalar 1]]]).
Proof.
  apply (depth_tolerates_zero_samples Sample.grey_2x3 Sample.manager_lb
           155.32508668169447%float
           (Some (set_dispScaleFactor Sample.manager_lb 155.32508668169447%float))).
  - do 3 right. left. reflexivity.
  - reflexivity.
  - reflexivity.
Defined.

(** The 2 x 3 image without a manager *)
Lemma depth_requires_manager_witness :
  depth Sample.grey_2x3 None = (Raise AttributeError, None).
Proof.
  apply (depth_requires_manager Sample.grey_2x3 2%nat 3%nat []
           (Sample.series_tan (radians (PrimFloat.div 71.86%float 2%float))));
    reflexivity.
Defined.

End DepthFacts.

(** ** The click tracker *)

Module TrackerFacts.
Import MouseClickTracker.

Lemma select_point_other_event name event x y flags self :
  event <> EVENT_LBUTTONUP -> select_point name event x y flags self = self.
Proof. intros Hev. unfold select_point. now rewrite bool_decide_eq_false_2. Qed.

(** A release on a point that is not the selected one selects it. *)
Lemma select_point_new name x y flags self :
  points self !! name <> Some (x, y) ->
  select_point name EVENT_LBUTTONUP x y flags self
  = {| points := <[name := (x, y)]> (points self); values := values self |}.
Proof.
  intros Hne. unfold select_point.
  rewrite bool_decide_eq_true_2 by reflexivity.
  now rewrite bool_decide_eq_false_2.
Qed.

(** A release on the selected point removes the point and the value. *)
Lemma select_point_same name x y flags self :
  points self !! name = Some (x, y) ->
  select_point name EVENT_LBUTTONUP x y flags self
  = {| points := delete name (points self); values := delete name (values self) |}.
Proof.
  intros Hsel. unfold select_point.
  rewrite bool_decide_eq_true_2 by reflexivity.
  rewrite bool_decide_eq_true_2 by assumption.
  destruct (values self !! name) eqn:Hv; [reflexivity |].
  now rewrite (delete_id _ _ Hv).
Qed.

Section WithExternal.
Context `{External}.

Lemma extract_value_points name frame self self' :
  extract_value name frame self = Ok self' -> points self' = points self.
Proof.
  unfold extract_value. destruct (points self !! name) as [point |].
  - destruct (format_value name frame point) as [s | e]; [| discriminate].
    now intros [= <-].
  - now intros [= <-].
Qed.

Lemma after_extract_points name frame self :
  points (after_extract name frame self) = points self.
Proof.
  unfold after_extract. destruct (extract_value name frame self) eqn:Hex; [| reflexivity].
  now apply extract_value_points in Hex.
Qed.

Lemma extract_all_points calls self :
  points (extract_all calls self) = points self.
Proof.
  revert self. induction calls as [| [name frame] calls IH]; intros self; [reflexivity |].
  cbn [extract_all]. now rewrite IH, after_extract_points.
Qed.

(** C6 (as amended): when the point stored for a name is not already
    (x, y), two successive releases of the left button at (x, y) on the
    handler of that name leave no point and no value for the name, whatever
    calls of [extract_value] run between the two. *)
Theorem double_click_clears name x y flags1 flags2 calls self :
  points self !! name <> Some (x, y) ->
  let once := select_point name EVENT_LBUTTONUP x y flags1 self in
  let twice := select_point name EVENT_LBUTTONUP x y flags2 (extract_all calls once) in
  points twice !! name = None /\ values twice !! name = None.
Proof.
  intros Hne once twice. subst twice.
  rewrite select_point_same.
  - cbn [points values]. split; apply lookup_delete_eq.
  - rewrite extract_all_points. subst once.
    rewrite (select_point_new _ _ _ _ _ Hne). cbn [points]. apply lookup_insert_eq.
Qed.

Lemma extract_value_stores name frame self point s :
  points self !! name = Some point ->
  format_value name frame point = Ok s ->
  extract_value name frame self = Ok (stored name s self).
Proof. intros Hpt Hfmt. unfold extract_value. now rewrite Hpt, Hfmt. Qed.

Lemma format_value_depth name frame point v :
  depth_kind name -> sample_at frame point = Ok v ->
  format_value name frame point = Ok (np_str v +:+ "mm").
Proof.
  intros Hkind Hv. unfold format_value.
  rewrite (proj2 (orb_true_iff _ _)).
  - now rewrite Hv.
  - destruct Hkind as [-> | ->]; [left | right]; now apply bool_decide_eq_true_2.
Qed.

Lemma format_value_disparity name frame point v :
  disparity_kind name -> sample_at frame point = Ok v ->
  format_value name frame point = Ok (np_str v +:+ "px").
Proof.
  intros Hkind Hv. unfold format_value.
  destruct Hkind as [-> | ->]; cbn; now rewrite Hv.
Qed.

Lemma format_value_other name frame point :
  ~ depth_kind name -> ~ disparity_kind name ->
  format_value name frame point
  = if bool_decide (length (shape frame) = 3%nat) then
      v ← sample_at frame point; channels ← reversed v; args ← unpack channels; format_rgb args
    else if bool_decide (length (shape frame) = 2%nat) then
      v ← sample_at frame point; mret ("Gray:" +:+ np_str v)
    else
      v ← sample_at frame point; mret (np_str v).
Proof.
  intros Hdepth Hdisp. unfold format_value, depth_kind, disparity_kind in *.
  rewrite (proj2 (orb_false_iff _ _)).
  - rewrite (proj2 (orb_false_iff _ _)); [reflexivity |].
    split; apply bool_decide_eq_false_2; tauto.
  - split; apply bool_decide_eq_false_2; tauto.
Qed.

(** C7: without a point stored for the name, [extract_value] leaves both
    dictionaries as they are.  With a stored point (x, y) and a sample [v]
    at row y, column x of the frame, it stores for the name (over any
    earlier value, the points untouched): [v] followed by "mm" for the depth
    kinds; [v] followed by "px" for the disparity kinds; for another name
    and a frame of three dimensions, "R:", "G:" and "B:" followed by the
    first three channels of [v] in the reverse of their storage order; for
    a frame of two dimensions "Gray:" followed by [v]; otherwise the
    string of [v]. *)
Theorem extract_value_spec name frame self :
  (points self !! name = None -> extract_value name frame self = Ok self)
  /\ (forall x y v,
        points self !! name = Some (x, y) ->
        (row ← index frame y; index row x) = Ok v ->
        (depth_kind name ->
           extract_value name frame self = Ok (stored name (np_str v +:+ "mm") self))
        /\ (disparity_kind name ->
           extract_value name frame self = Ok (stored name (np_str v +:+ "px") self))
        /\ (~ depth_kind name -> ~ disparity_kind name ->
            length (shape frame) = 3%nat ->
            forall channels r g b rest,
              v = Arr channels -> rev channels = r :: g :: b :: rest ->
              extract_value name frame self
              = Ok (stored name
                      ("R:" +:+ np_str r +:+ ",G:" +:+ np_str g +:+ ",B:" +:+ np_str b) self))
        /\ (~ depth_kind name -> ~ disparity_kind name ->
            length (shape frame) = 2%nat ->
            extract_value name frame self = Ok (stored name ("Gray:" +:+ np_str v) self))
        /\ (~ depth_kind name -> ~ disparity_kind name ->
            length (shape frame) <> 3%nat -> length (shape frame) <> 2%nat ->
            extract_value name frame self = Ok (stored name (np_str v) self))).
Proof.
  split.
  - intros Hnone. unfold extract_value. now rewrite Hnone.
  - intros x y v Hpt Hv.
    assert (Hsample : sample_at frame (x, y) = Ok v) by exact Hv.
    repeat split.
    + intros Hkind. apply (extract_value_stores _ _ _ _ _ Hpt).
      now apply format_value_depth.
    + intros Hkind. apply (extract_value_stores _ _ _ _ _ Hpt).
      now apply format_value_disparity.
    + intros Hdepth Hdisp Hdim channels r g b rest -> Hrev.
      apply (extract_value_stores _ _ _ _ _ Hpt).
      rewrite (format_value_other _ _ _ Hdepth Hdisp).
      rewrite bool_decide_eq_true_2 by assumption.
      rewrite Hsample. cbn [mbind outcome_bind Py.bind reversed unpack].
      now rewrite Hrev.
    + intros Hdepth Hdisp Hdim.
      apply (extract_value_stores _ _ _ _ _ Hpt).
      rewrite (format_value_other _ _ _ Hdepth Hdisp).
      rewrite bool_decide_eq_false_2 by (rewrite Hdim; discriminate).
      rewrite bool_decide_eq_true_2 by assumption.
      now rewrite Hsample.
    + intros Hdepth Hdisp Hdim3 Hdim2.
      apply (extract_value_stores _ _ _ _ _ Hpt).
      rewrite (format_value_other _ _ _ Hdepth Hdisp).
      rewrite !bool_decide_eq_false_2 by assumption.
      now rewrite Hsample.
Qed.

Lemma run_snoc trace a : run (trace ++ [a]) = perform a (run trace).
Proof. unfold run. now rewrite fold_left_app. Qed.

Lemma reachable_run trace : reachable (run trace).
Proof.
  induction trace as [| a trace IH] using rev_ind; [apply reachable_empty |].
  rewrite run_snoc. destruct a as [name event x y flags | name frame]; cbn [perform].
  - now apply reachable_click.
  - now apply reachable_extract.
Qed.

Lemma reachable_has_trace self : reachable self -> exists trace, self = run trace.
Proof.
  induction 1 as [| self name event x y flags _ [trace ->] | self name frame _ [trace ->]].
  - now exists [].
  - exists (trace ++ [Click name event x y flags]). now rewrite run_snoc.
  - exists (trace ++ [Extract name frame]). now rewrite run_snoc.
Qed.

(** A value is stored only for a name that has a point. *)
Lemma reachable_value_domain self :
  reachable self ->
  forall name s, values self !! name = Some s -> is_Some (points self !! name).
Proof.
  induction 1 as [| self name0 event x y flags Hreach IH | self name0 frame Hreach IH];
    intros name s Hval.
  - cbn in Hval. now rewrite lookup_empty in Hval.
  - destruct (decide (event = EVENT_LBUTTONUP)) as [-> | Hev];
      [| rewrite select_point_other_event in * by assumption; now apply (IH name s)].
    destruct (decide (points self !! name0 = Some (x, y))) as [Hsel | Hnew].
    + rewrite (select_point_same _ _ _ _ _ Hsel) in *. cbn [points values] in *.
      apply lookup_delete_Some in Hval as [Hne Hval].
      rewrite lookup_delete_ne by assumption. now apply (IH name s).
    + rewrite (select_point_new _ _ _ _ _ Hnew) in *. cbn [points values] in *.
      apply lookup_insert_is_Some. destruct (decide (name0 = name)); [now left |].
      right. split; [assumption | now apply (IH name s)].
  - rewrite after_extract_points.
    unfold after_extract, extract_value in Hval.
    destruct (points self !! name0) as [point |] eqn:Hpt; [| now apply (IH name s)].
    destruct (format_value name0 frame point) as [s0 | e] eqn:Hfmt; [| now apply (IH name s)].
    cbn [mbind mret outcome_bind outcome_ret Py.bind values] in Hval.
    destruct (decide (name0 = name)) as [-> | Hne]; [rewrite Hpt; eauto |].
    rewrite lookup_insert_ne in Hval by assumption. now apply (IH name s).
Qed.

(** An interaction leaves a value for a name only by keeping the one that
    was there or by a call of [extract_value] for that name that formats it
    at the point stored at that moment. *)
Lemma perform_value a self name s :
  values (perform a self) !! name = Some s ->
  (exists frame point,
      a = Extract name frame
      /\ points self !! name = Some point
      /\ format_value name frame point = Ok s)
  \/ values self !! name = Some s.
Proof.
  destruct a as [name0 event x y flags | name0 frame]; cbn [perform]; intros Hval.
  - right. unfold select_point in Hval.
    destruct (bool_decide (event = EVENT_LBUTTONUP)); [| exact Hval].
    destruct (bool_decide (points self !! name0 = Some (x, y)));
      cbn [values] in Hval; [| exact Hval].
    destruct (values self !! name0); [| exact Hval].
    now apply lookup_delete_Some in Hval as [_ Hval].
  - unfold after_extract, extract_value in Hval.
    destruct (points self !! name0) as [point |] eqn:Hpt; [| now right].
    destruct (format_value name0 frame point) as [s0 | e] eqn:Hfmt; [| now right].
    cbn [mbind mret outcome_bind outcome_ret Py.bind values] in Hval.
    destruct (decide (name0 = name)) as [-> | Hne].
    + rewrite lookup_insert_eq in Hval. injection Hval as <-. left. eauto.
    + rewrite lookup_insert_ne in Hval by assumption. now right.
Qed.

(** The origin of a stored value in the run that led to it *)
Lemma run_value_origin trace name s :
  values (run trace) !! name = Some s ->
  exists before frame point after,
    trace = before ++ Extract name frame :: after
    /\ points (run before) !! name = Some point
    /\ format_value name frame point = Ok s
    /\ forall later rest,
         after = later ++ rest ->
         values (run (before ++ Extract name frame :: later)) !! name = Some s.
Proof.
  induction trace as [| a trace IH] using rev_ind; intros Hval.
  - cbn in Hval. now rewrite lookup_empty in Hval.
  - pose proof Hval as Hlast. rewrite run_snoc in Hval.
    apply perform_value in Hval as [(frame & point & -> & Hpt & Hfmt) | Hkept].
    + exists trace, frame, point, []. repeat split; try assumption.
      intros later rest Hnil. symmetry in Hnil.
      apply app_eq_nil in Hnil as [-> _]. exact Hlast.
    + destruct (IH Hkept) as (before & frame & point & after & -> & Hpt & Hfmt & Hstays).
      exists before, frame, point, (after ++ [a]).
      split; [now rewrite <- app_assoc |]. split; [exact Hpt |]. split; [exact Hfmt |].
      intros later rest Hsplit.
      destruct rest as [| b rest _] using rev_ind.
      * rewrite app_nil_r in Hsplit. subst later.
        replace (before ++ Extract name frame :: after ++ [a])
          with ((before ++ Extract name frame :: after) ++ [a])
          by now rewrite <- app_assoc.
        exact Hlast.
      * rewrite app_assoc in Hsplit. apply app_inj_tail in Hsplit as [Hafter _].
        now apply (Hstays later rest).
Qed.


End WithExternal.

#[local] Existing Instance Sample.external.

(** C6 (as stated, refuted): starting from a tracker on which (10, 20) is
    selected for "left", two successive releases at (10, 20) leave that
    point selected. *)
Lemma double_click_on_selected_point :
  let self := select_point "left" EVENT_LBUTTONUP 10 20 0 empty in
  let twice :=
    select_point "left" EVENT_LBUTTONUP 10 20 0
      (select_point "left" EVENT_LBUTTONUP 10 20 0 self) in
  points self !! "left" = Some (10, 20)
  /\ points twice !! "left" = Some (10, 20).
Proof. split; reflexivity. Qed.

(** Two releases at (0, 0) from the empty tracker; the extraction between
    them stores a value, which the second release removes. *)
Lemma double_click_clears_witness :
  let once := select_point "left" EVENT_LBUTTONUP 0 0 0 empty in
  let between := extract_all [("left", Sample.grey_2x3)] once in
  let twice := select_point "left" EVENT_LBUTTONUP 0 0 0 between in
  values between !! "left" = Some "Gray:7"%string
  /\ points twice !! "left" = None /\ values twice !! "left" = None.
Proof.
  split; [reflexivity |].
  apply (double_click_clears "left" 0 0 0 0 [("left", Sample.grey_2x3)] empty).
  cbn. rewrite lookup_empty. discriminate.
Defined.

(** A grey image, the point (1, 0): row 0, column 1 holds 9. *)
Lemma extract_value_spec_witness :
  let self := select_point "left" EVENT_LBUTTONUP 1 0 0 empty in
  extract_value "left" Sample.grey_2x3 self = Ok (stored "left" "Gray:9" self).
Proof.
  intros self.
  refine (proj1 (proj2 (proj2 (proj2
            (proj2 (extract_value_spec "left" Sample.grey_2x3 self) 1 0 (Scalar 9) _ _)))) _ _ _).
  - reflexivity.
  - reflexivity.
  - intros [Hk | Hk]; discriminate Hk.
  - intros [Hk | Hk]; discriminate Hk.
  - reflexivity.
Defined.



(** The example of the specification, on a small image: [left] returns the
    native frame when the manager is not in low-bandwidth mode, and the
    value shown for a point selected on it is the grey level there. *)
Example left_native_then_gray :
  let manager := Some {| lowBandwidth := false; sync := false;
                         dispMultiplier := PrimFloat.div 255%float 96%float;
                         colorMap := COLORMAP_JET; nn_source := None;
                         dispScaleFactor := None; baseline := None;
                         fov := None; focal := None |} in
  let self := select_point "left" EVENT_LBUTTONUP 2 1 0 empty in
  PreviewDecoder.left Sample.raw_packet manager = Ok (Some Sample.grey_2x3)
  /\ values (after_extract "left" Sample.grey_2x3 self) !! "left" = Some "Gray:255"%string.
Proof. split; reflexivity. Qed.

(** A colour image: the channels are stored blue, green, red and shown in
    the reverse order. *)
Example color_value_reverses_channels :
  let self := select_point "color" EVENT_LBUTTONUP 1 0 0 empty in
  values (after_extract "color" Sample.bgr_1x2 self) !! "color" = Some "R:3,G:2,B:1"%string.
Proof. reflexivity. Qed.

(** A point outside of the frame: the call raises and stores nothing. *)
Example extract_value_out_of_bounds :
  let self := select_point "left" EVENT_LBUTTONUP 3 0 0 empty in
  extract_value "left" Sample.grey_2x3 self = Raise IndexError
  /\ values (after_extract "left" Sample.grey_2x3 self) !! "left" = None.
Proof. split; reflexivity. Qed.

End TrackerFacts.

(** * Further properties of the decoders *)

Module DecoderMore.
Import PreviewDecoder.

Section WithExternal.
Context `{External}.

(** X1: mirroring the output of [rectified_left] once more gives back what
    [left] returns for the same packet and manager. *)
Theorem rectified_left_mirrored_back packet manager f :
  left packet manager = Ok (Some f) ->
  cv2_flip <$> rectified_left packet manager = Ok (Some f).
Proof.
  intros Hleft.
  assert (Hrl : rectified_left packet manager = cv2_flip <$> left packet manager).
  { unfold rectified_left, left. destruct manager as [m |]; [| reflexivity].
    destruct (lowBandwidth m), (sync m); reflexivity. }
  rewrite Hrl, Hleft. cbn. now rewrite hflip_involutive.
Qed.

(** The mirror of a result fails as the result does. *)
Lemma flip_raises_iff (r : outcome (option image)) e :
  cv2_flip <$> r = Raise e <-> r = Raise e.
Proof. destruct r as [[f |] | e']; cbn; split; congruence. Qed.

Lemma flip_none_iff (r : outcome (option image)) :
  cv2_flip <$> r = Ok None <-> r = Ok None.
Proof. destruct r as [[f |] | e']; cbn; split; congruence. Qed.





(** X6: an image returned by [disparity] has the shape of the grey image it
    was made from (the raw frame of the packet or the decoded payload), and
    its samples are those of that image, each multiplied and cast, in the
    same order. *)
Theorem disparity_keeps_shape packet manager out :
  disparity packet manager = Ok out ->
  exists raw,
    (raw = getFrame packet
     \/ imdecode (getData packet) IMREAD_GRAYSCALE = Ok (Some raw))
    /\ shape out = shape raw
    /\ samples out
       = List.map (fun v => scaled_uint8 (disparity_multiplier manager) (float_of_Z v))
           (samples raw).
Proof.
  unfold disparity. fold (disparity_multiplier manager).
  destruct manager as [m |];
    [destruct (lowBandwidth m);
       [destruct (imdecode (getData packet) IMREAD_GRAYSCALE) as [[raw |] | e] eqn:Hdec |] |];
    cbn [mbind outcome_bind Py.bind]; try discriminate;
    intros [= <-];
    [exists raw; split; [now right |]
    | exists (getFrame packet); split; [now left |] ..];
    unfold scale_to_uint8; rewrite nd_map_map;
    (split; [apply nd_map_shape | apply nd_map_samples]).
Qed.


End WithExternal.

#[local] Existing Instance Sample.external.

(** The encoded sample packet under a manager that does not synchronise *)
Lemma rectified_left_mirrored_back_witness :
  cv2_flip <$> rectified_left Sample.encoded_packet (Some Sample.manager_lb)
  = Ok (Some (Arr [Arr [Scalar 5; Scalar 6]])).
Proof.
  apply (rectified_left_mirrored_back Sample.encoded_packet (Some Sample.manager_lb)).
  reflexivity.
Defined.

(** The raw sample packet without a manager *)
Lemma disparity_keeps_shape_witness :
  exists raw,
    (raw = getFrame Sample.raw_packet
     \/ imdecode (getData Sample.raw_packet) IMREAD_GRAYSCALE = Ok (Some raw))
    /\ shape (Arr [Arr [Scalar 18; Scalar 23; Scalar 29]; Arr [Scalar 0; Scalar 255; Scalar 255]])
       = shape raw
    /\ samples (Arr [Arr [Scalar 18; Scalar 23; Scalar 29]; Arr [Scalar 0; Scalar 255; Scalar 255]])
       = List.map (fun v => scaled_uint8 (disparity_multiplier None) (float_of_Z v))
           (samples raw).
Proof.
  apply (disparity_keeps_shape Sample.raw_packet None). reflexivity.
Defined.


(** The encoded sample packet under a manager that does not synchronise *)
Lemma rectified_right_mirrors_right_witness :
  rectified_right Sample.encoded_packet (Some Sample.manager_lb)
  = cv2_flip <$> right Sample.encoded_packet (Some Sample.manager_lb).
Proof.
  apply (DecoderFacts.rectified_right_mirrors_right Sample.encoded_packet
           (Some Sample.manager_lb)).
  intros m [= <-] _. reflexivity.
Defined.

End DecoderMore.

(** * Further properties of the depth decoder *)

Module DepthMore.
Import PreviewDecoder.

Lemma getitem_short {A} (l : list A) :
  (length l < 2)%nat -> getitem l 1 = Raise IndexError.
Proof.
  intros Hlen. destruct l as [| a [| b l]]; [reflexivity | reflexivity |].
  cbn [length] in Hlen. lia.
Qed.

Section WithExternal.
Context `{External}.

(** The exceptions of the default focal length: a missing axis, the
    tangent's range error, a zero divisor. *)
Lemma default_focal_exceptions raw fovv e :
  default_focal raw fovv = Raise e ->
  e = IndexError \/ e = ValueError \/ e = ZeroDivisionError.
Proof.
  unfold default_focal, getitem.
  destruct (_ && _); [destruct (nth_error _ _) |]; cbn;
    try (destruct (_ && _); [destruct (nth_error _ _) |]; cbn);
    try (intros [= <-]; now left).
  all: unfold math_tan; destruct (_ && _); cbn; try (intros [= <-]; tauto).
  all: destruct (_ && _); cbn; try (intros [= <-]; tauto).
  all: unfold truediv; destruct (PrimFloat.is_zero _); intros [= <-]; tauto.
Qed.

(** X8: once a scale factor is cached on the manager, [depth] no longer
    reads the baseline, the field of view or the focal length: two managers
    with the same cached factor, multiplier and colour map give the same
    result on every frame, and the call leaves the manager as it is. *)
Theorem depth_cached_ignores_calibration raw m m' sf :
  dispScaleFactor m = Some sf ->
  dispScaleFactor m' = Some sf ->
  dispMultiplier m' = dispMultiplier m ->
  colorMap m' = colorMap m ->
  fst (depth raw (Some m)) = fst (depth raw (Some m'))
  /\ snd (depth raw (Some m)) = Some m.
Proof.
  intros Hsf Hsf' Hk Hcm.
  rewrite (DepthFacts.depth_cached raw m sf Hsf), (DepthFacts.depth_cached raw m' sf Hsf').
  cbn [fst snd]. now rewrite Hk, Hcm.
Qed.

(** X9: without a cached scale factor, [depth] raises an IndexError on a
    frame with fewer than two axes and stores nothing, also when the
    manager supplies a focal length: the default focal length is computed
    before the attribute is looked up. *)
Theorem depth_needs_two_axes raw m :
  dispScaleFactor m = None ->
  (length (shape raw) < 2)%nat ->
  depth raw (Some m) = (Raise IndexError, Some m).
Proof.
  intros Hsf Hlen. unfold depth, scale_factor. cbn [mbind option_bind]. rewrite Hsf.
  unfold default_focal. rewrite (getitem_short _ Hlen). reflexivity.
Qed.

(** X10: without a cached scale factor, [depth] raises a ZeroDivisionError
    and stores nothing when twice the tangent of half the field of view is
    zero, also when the manager supplies a focal length. *)
Theorem depth_zero_tangent raw m h w rest t :
  dispScaleFactor m = None ->
  shape raw = h :: w :: rest ->
  math_tan (radians (PrimFloat.div (default 71.86%float (fov m)) 2%float)) = Ok t ->
  PrimFloat.is_zero (PrimFloat.mul 2%float t) = true ->
  depth raw (Some m) = (Raise ZeroDivisionError, Some m).
Proof.
  intros Hsf Hshape Htan Hz. unfold depth, scale_factor. cbn [mbind option_bind].
  rewrite Hsf. unfold getattr.
  replace (match fov m with Some v => v | None => 71.86%float end)
    with (default 71.86%float (fov m)) by (now destruct (fov m)).
  unfold default_focal. rewrite (DepthFacts.shape_width raw h w rest Hshape).
  cbn [mbind outcome_bind Py.bind]. rewrite Htan. cbn [mbind outcome_bind Py.bind].
  unfold truediv. now rewrite Hz.
Qed.

(** X11: without a manager [depth] raises on every frame and returns no
    manager: the exception is one of the default focal length (IndexError,
    ValueError, ZeroDivisionError) or the AttributeError of the
    multiplier. *)
Theorem depth_without_manager_raises raw :
  snd (depth raw None) = None
  /\ exists e,
       fst (depth raw None) = Raise e
       /\ (e = IndexError \/ e = ValueError \/ e = ZeroDivisionError \/ e = AttributeError).
Proof.
  unfold depth, scale_factor. cbn [mbind option_bind getattr].
  destruct (default_focal raw 71.86%float) as [fd | e] eqn:Hfd; cbn.
  - split; [reflexivity |]. exists AttributeError. tauto.
  - split; [reflexivity |]. exists e. split; [reflexivity |].
    destruct (default_focal_exceptions _ _ _ Hfd) as [-> | [-> | ->]]; tauto.
Qed.

(** X12: the scale factor stays on the manager when the call fails later:
    if the colour map raises on the first call, [depth] raises the same
    exception and the manager holds the computed factor. *)
Theorem depth_caches_before_colour_map raw m fd e :
  dispScaleFactor m = None ->
  default_focal raw (default 71.86%float (fov m)) = Ok fd ->
  let sf := PrimFloat.mul (default 75%float (baseline m)) (default fd (focal m)) in
  applyColorMap (depth_disparity sf (dispMultiplier m) raw) (colorMap m) = Raise e ->
  depth raw (Some m) = (Raise e, Some (set_dispScaleFactor m sf)).
Proof.
  intros Hsf Hfd sf Hcolor.
  rewrite (DepthFacts.depth_with_scale raw m sf (set_dispScaleFactor m sf)).
  - now rewrite Hcolor.
  - now apply DepthFacts.scale_factor_first.
  - apply DepthFacts.set_dispScaleFactor_same.
Qed.

End WithExternal.

#[local] Existing Instance Sample.external.

(** Two managers with the cached factor 30000 and different calibration *)
Lemma depth_cached_ignores_calibration_witness :
  fst (depth Sample.grey_2x3
         (Some (set_dispScaleFactor (Calibration.calibrated 71.86%float COLORMAP_JET) 30000%float)))
  = fst (depth Sample.grey_2x3
           (Some (set_dispScaleFactor Sample.manager_lb 30000%float)))
  /\ snd (depth Sample.grey_2x3
            (Some (set_dispScaleFactor (Calibration.calibrated 71.86%float COLORMAP_JET) 30000%float)))
     = Some (set_dispScaleFactor (Calibration.calibrated 71.86%float COLORMAP_JET) 30000%float).
Proof.
  apply (depth_cached_ignores_calibration Sample.grey_2x3
           (set_dispScaleFactor (Calibration.calibrated 71.86%float COLORMAP_JET) 30000%float)
           (set_dispScaleFactor Sample.manager_lb 30000%float) 30000%float);
    reflexivity.
Defined.

(** A frame of one axis, a manager that supplies the focal length *)
Lemma depth_needs_two_axes_witness :
  depth (Arr [Scalar 100; Scalar 200]) (Some (Calibration.calibrated 71.86%float COLORMAP_JET))
  = (Raise IndexError, Some (Calibration.calibrated 71.86%float COLORMAP_JET)).
Proof.
  apply (depth_needs_two_axes (Arr [Scalar 100; Scalar 200])
           (Calibration.calibrated 71.86%float COLORMAP_JET)).
  - reflexivity.
  - cbn. lia.
Defined.

(** A field of view of zero degrees, a manager that supplies the focal
    length *)
Lemma depth_zero_tangent_witness :
  depth Sample.grey_2x3 (Some (Calibration.calibrated 0%float COLORMAP_JET))
  = (Raise ZeroDivisionError, Some (Calibration.calibrated 0%float COLORMAP_JET)).
Proof.
  apply (depth_zero_tangent Sample.grey_2x3 (Calibration.calibrated 0%float COLORMAP_JET)
           2%nat 3%nat [] 0%float); reflexivity.
Defined.

(** A colour-map selector that the sample colour map refuses *)
Lemma depth_caches_before_colour_map_witness :
  depth Sample.grey_2x3 (Some (Calibration.calibrated 71.86%float 99))
  = (Raise Cv2Error, Some (set_dispScaleFactor (Calibration.calibrated 71.86%float 99) 30000%float)).
Proof.
  apply (depth_caches_before_colour_map Sample.grey_2x3 (Calibration.calibrated 71.86%float 99)
           (PrimFloat.div 3%float
              (PrimFloat.mul 2%float
                 (Sample.series_tan (radians (PrimFloat.div 71.86%float 2%float)))))
           Cv2Error); reflexivity.
Defined.

End DepthMore.

(** * Further properties of the click tracker *)

Module TrackerMore.
Import MouseClickTracker.

(** X13: the names of the previews are pairwise distinct, so no two kinds
    share an entry of the tracker. *)
Theorem preview_names_distinct p q : Previews.name p = Previews.name q -> p = q.
Proof. destruct p, q; cbn; intros Heq; try reflexivity; discriminate Heq. Qed.

(** X14: the handler of one name leaves the point and the value of every
    other name as they are, whatever the event. *)
Theorem select_point_other_names name name' event x y flags self :
  name' <> name ->
  points (select_point name event x y flags self) !! name' = points self !! name'
  /\ values (select_point name event x y flags self) !! name' = values self !! name'.
Proof.
  intros Hne. unfold select_point.
  destruct (bool_decide (event = EVENT_LBUTTONUP)); [| split; reflexivity].
  destruct (bool_decide (points self !! name = Some (x, y))); cbn [points values].
  - split; [now apply lookup_delete_ne |].
    destruct (values self !! name); [now apply lookup_delete_ne | reflexivity].
  - split; [now apply lookup_insert_ne | reflexivity].
Qed.

(** X24: a release on a point other than the stored one moves the
    selection there and keeps the value of the name, which is then the
    value of the earlier point until the next extraction. *)
Theorem select_point_moves_selection name x y flags self :
  points self !! name <> Some (x, y) ->
  points (select_point name EVENT_LBUTTONUP x y flags self) !! name = Some (x, y)
  /\ values (select_point name EVENT_LBUTTONUP x y flags self) = values self.
Proof.
  intros Hne. unfold select_point.
  rewrite bool_decide_eq_true_2 by reflexivity.
  rewrite bool_decide_eq_false_2 by assumption.
  cbn [points values]. split; [apply lookup_insert_eq | reflexivity].
Qed.

(** X25: a release on the stored point removes the point and the value of
    the name, whether or not a value was stored. *)
Theorem select_point_clears_selection name x y flags self :
  points self !! name = Some (x, y) ->
  points (select_point name EVENT_LBUTTONUP x y flags self) !! name = None
  /\ values (select_point name EVENT_LBUTTONUP x y flags self) !! name = None.
Proof.
  intros Hsel. unfold select_point.
  rewrite bool_decide_eq_true_2 by reflexivity.
  rewrite bool_decide_eq_true_2 by assumption.
  cbn [points values]. split; [apply lookup_delete_eq |].
  destruct (values self !! name) eqn:Hv; [apply lookup_delete_eq | exact Hv].
Qed.

Lemma getitem_wraps {A} (l : list A) (i : Z) :
  - Z.of_nat (length l) <= i < 0 ->
  getitem l i = getitem l (i + Z.of_nat (length l)).
Proof.
  intros [Hlo Hhi]. unfold getitem. cbn zeta.
  replace (0 <=? i) with false by (symmetry; apply Z.leb_gt; lia).
  replace (- Z.of_nat (length l) <=? i) with true by (symmetry; apply Z.leb_le; lia).
  replace (i <? 0) with true by (symmetry; apply Z.ltb_lt; lia).
  replace (0 <=? i + Z.of_nat (length l)) with true by (symmetry; apply Z.leb_le; lia).
  replace (i + Z.of_nat (length l) <? Z.of_nat (length l)) with true
    by (symmetry; apply Z.ltb_lt; lia).
  reflexivity.
Qed.

Lemma getitem_out_of_range {A} (l : list A) (i : Z) :
  i < - Z.of_nat (length l) \/ Z.of_nat (length l) <= i ->
  getitem l i = Raise IndexError.
Proof.
  intros Hout. unfold getitem. cbn zeta.
  destruct Hout as [Hlo | Hhi].
  - replace (0 <=? i) with false by (symmetry; apply Z.leb_gt; lia).
    replace (- Z.of_nat (length l) <=? i) with false by (symmetry; apply Z.leb_gt; lia).
    reflexivity.
  - replace (i <? Z.of_nat (length l)) with false by (symmetry; apply Z.ltb_ge; lia).
    replace (i <? 0) with false by (symmetry; apply Z.ltb_ge; lia).
    now rewrite !andb_false_r.
Qed.

Section WithExternal.
Context `{External}.

(** The formatted value depends on the point through the sample only. *)
Lemma format_value_sample name frame point point' :
  sample_at frame point = sample_at frame point' ->
  format_value name frame point = format_value name frame point'.
Proof. intros Heq. unfold format_value. now rewrite Heq. Qed.

Lemma format_value_raises name frame point e :
  sample_at frame point = Raise e -> format_value name frame point = Raise e.
Proof.
  intros Hraise. unfold format_value. rewrite Hraise.
  repeat (destruct (_ || _) || destruct (bool_decide _)); reflexivity.
Qed.

(** X15: [extract_value] changes no point and no value of another name,
    whether it returns or raises. *)
Theorem extract_value_other_names name name' frame self :
  points (after_extract name frame self) = points self
  /\ (name' <> name ->
      values (after_extract name frame self) !! name' = values self !! name').
Proof.
  unfold after_extract, extract_value.
  destruct (points self !! name) as [point |]; [| split; reflexivity].
  destruct (format_value name frame point) as [s | e]; cbn; [| split; reflexivity].
  split; [reflexivity |]. intros Hne. now apply lookup_insert_ne.
Qed.

(** X16: a second call of [extract_value] with the same name and frame
    changes nothing more. *)
Theorem extract_value_twice name frame self :
  after_extract name frame (after_extract name frame self) = after_extract name frame self.
Proof.
  unfold after_extract at 2 3. unfold extract_value.
  destruct (points self !! name) as [point |] eqn:Hpt.
  - destruct (format_value name frame point) as [s | e] eqn:Hfmt; cbn.
    + unfold after_extract, extract_value. cbn [points values]. rewrite Hpt, Hfmt. cbn.
      now rewrite insert_insert_eq.
    + unfold after_extract, extract_value. now rewrite Hpt, Hfmt.
  - cbn. unfold after_extract, extract_value. now rewrite Hpt.
Qed.

(** X17: after a call of [extract_value] that returns for a name with a
    stored point, the value of the name is the string formatted from this
    frame at that point, and the point is still stored. *)
Theorem extract_value_fresh name frame self self' point :
  points self !! name = Some point ->
  extract_value name frame self = Ok self' ->
  points self' !! name = Some point
  /\ exists s, format_value name frame point = Ok s /\ values self' !! name = Some s.
Proof.
  intros Hpt. unfold extract_value. rewrite Hpt.
  destruct (format_value name frame point) as [s | e]; cbn; [| discriminate].
  intros [= <-]. cbn [points values]. split; [exact Hpt |].
  exists s. split; [reflexivity | apply lookup_insert_eq].
Qed.

(** X18: a stored row coordinate outside of the rows of the frame, or a
    column coordinate outside of the selected row, makes [extract_value]
    raise an IndexError; the dictionaries stay as they are. *)
Theorem extract_value_out_of_range name rows self x y :
  points self !! name = Some (x, y) ->
  (y < - Z.of_nat (length rows) \/ Z.of_nat (length rows) <= y)
  \/ (exists cols, index (Arr rows) y = Ok (Arr cols)
        /\ (x < - Z.of_nat (length cols) \/ Z.of_nat (length cols) <= x)) ->
  extract_value name (Arr rows) self = Raise IndexError
  /\ after_extract name (Arr rows) self = self.
Proof.
  intros Hpt Hout.
  assert (Hsample : sample_at (Arr rows) (x, y) = Raise IndexError).
  { unfold sample_at. cbn [fst snd]. destruct Hout as [Hrow | (cols & Hrow & Hcol)].
    - cbn [index]. now rewrite (getitem_out_of_range rows y Hrow).
    - rewrite Hrow. cbn. now apply getitem_out_of_range. }
  assert (Hex : extract_value name (Arr rows) self = Raise IndexError).
  { unfold extract_value. rewrite Hpt.
    now rewrite (format_value_raises _ _ _ _ Hsample). }
  split; [exact Hex |]. unfold after_extract. now rewrite Hex.
Qed.

(** X19: a negative row coordinate, down to minus the number of rows,
    selects the row counted from the bottom: formatting at row y gives what
    formatting at row y plus the number of rows gives. *)
Theorem negative_row_counts_from_bottom name rows x y :
  - Z.of_nat (length rows) <= y < 0 ->
  format_value name (Arr rows) (x, y)
  = format_value name (Arr rows) (x, y + Z.of_nat (length rows)).
Proof.
  intros Hy. apply format_value_sample. unfold sample_at. cbn [fst snd index].
  now rewrite (getitem_wraps rows y Hy).
Qed.

(** X20: on a frame of three dimensions whose pixels have four channels
    (blue, green, red, alpha in storage order) the value shows the alpha
    channel as R, red as G and green as B. *)
Theorem four_channels_shift_the_colours name frame self x y b g r a :
  points self !! name = Some (x, y) ->
  ~ depth_kind name -> ~ disparity_kind name ->
  length (shape frame) = 3%nat ->
  sample_at frame (x, y) = Ok (Arr [b; g; r; a]) ->
  extract_value name frame self
  = Ok (stored name ("R:" +:+ np_str a +:+ ",G:" +:+ np_str r +:+ ",B:" +:+ np_str g) self).
Proof.
  intros Hpt Hdepth Hdisp Hdim Hsample.
  apply (TrackerFacts.extract_value_stores _ _ _ _ _ Hpt).
  rewrite (TrackerFacts.format_value_other _ _ _ Hdepth Hdisp).
  rewrite bool_decide_eq_true_2 by assumption.
  rewrite Hsample. reflexivity.
Qed.

(** X21: on a frame of three dimensions whose pixels have fewer than three
    channels [extract_value] raises an IndexError and stores nothing. *)
Theorem few_channels_raise name frame self x y channels :
  points self !! name = Some (x, y) ->
  ~ depth_kind name -> ~ disparity_kind name ->
  length (shape frame) = 3%nat ->
  sample_at frame (x, y) = Ok (Arr channels) ->
  (length channels < 3)%nat ->
  extract_value name frame self = Raise IndexError
  /\ after_extract name frame self = self.
Proof.
  intros Hpt Hdepth Hdisp Hdim Hsample Hlen.
  assert (Hex : extract_value name frame self = Raise IndexError).
  { unfold extract_value. rewrite Hpt.
    rewrite (TrackerFacts.format_value_other _ _ _ Hdepth Hdisp).
    rewrite bool_decide_eq_true_2 by assumption.
    rewrite Hsample. cbn [mbind outcome_bind Py.bind reversed unpack].
    assert (Hrev : (length (rev channels) < 3)%nat) by now rewrite length_rev.
    destruct (rev channels) as [| c0 [| c1 [| c2 rest]]]; try reflexivity.
    cbn [length] in Hrev. lia. }
  split; [exact Hex |]. unfold after_extract. now rewrite Hex.
Qed.

End WithExternal.

#[local] Existing Instance Sample.external.

(** A release for "left" does not touch the selection of "color". *)
Lemma select_point_other_names_witness :
  let self := select_point "color" EVENT_LBUTTONUP 5 6 0 empty in
  points (select_point "left" EVENT_LBUTTONUP 1 0 0 self) !! "color" = points self !! "color"
  /\ values (select_point "left" EVENT_LBUTTONUP 1 0 0 self) !! "color"
     = values self !! "color".
Proof.
  intros self.
  apply (select_point_other_names "left" "color" EVENT_LBUTTONUP 1 0 0 self).
  discriminate.
Defined.

(** An extraction at (1, 0) of the grey sample image *)
Lemma extract_value_fresh_witness :
  let self := select_point "left" EVENT_LBUTTONUP 1 0 0 empty in
  points (stored "left" "Gray:9" self) !! "left" = Some (1, 0)
  /\ exists s, format_value "left" Sample.grey_2x3 (1, 0) = Ok s
               /\ values (stored "left" "Gray:9" self) !! "left" = Some s.
Proof.
  intros self.
  apply (extract_value_fresh "left" Sample.grey_2x3 self (stored "left" "Gray:9" self) (1, 0));
    reflexivity.
Defined.

(** Column 3 of an image with three columns *)
Lemma extract_value_out_of_range_witness :
  let rows := [Arr [Scalar 7; Scalar 9; Scalar 11]; Arr [Scalar 0; Scalar 200; Scalar 255]] in
  let self := select_point "left" EVENT_LBUTTONUP 3 0 0 empty in
  extract_value "left" (Arr rows) self = Raise IndexError
  /\ after_extract "left" (Arr rows) self = self.
Proof.
  intros rows self.
  apply (extract_value_out_of_range "left" rows self 3 0); [reflexivity |].
  right. exists [Scalar 7; Scalar 9; Scalar 11]. split; [reflexivity |]. right. cbn. lia.
Defined.

(** Row -1 of an image with two rows is its row 1. *)
Lemma negative_row_counts_from_bottom_witness :
  let rows := [Arr [Scalar 7; Scalar 9; Scalar 11]; Arr [Scalar 0; Scalar 200; Scalar 255]] in
  format_value "left" (Arr rows) (1, -1) = format_value "left" (Arr rows) (1, -1 + 2).
Proof.
  intros rows.
  apply (negative_row_counts_from_bottom "left" rows 1 (-1)). cbn. lia.
Defined.

(** One pixel with the channels 10, 20, 30 and 255 *)
Lemma four_channels_shift_the_colours_witness :
  let frame := Arr [Arr [Arr [Scalar 10; Scalar 20; Scalar 30; Scalar 255]]] in
  let self := select_point "color" EVENT_LBUTTONUP 0 0 0 empty in
  extract_value "color" frame self = Ok (stored "color" "R:255,G:30,B:20" self).
Proof.
  intros frame self.
  apply (four_channels_shift_the_colours "color" frame self 0 0
           (Scalar 10) (Scalar 20) (Scalar 30) (Scalar 255)).
  - reflexivity.
  - intros [Hk | Hk]; discriminate Hk.
  - intros [Hk | Hk]; discriminate Hk.
  - reflexivity.
  - reflexivity.
Defined.

(** One pixel with a single channel *)
Lemma few_channels_raise_witness :
  let frame := Arr [Arr [Arr [Scalar 10]]] in
  let self := select_point "color" EVENT_LBUTTONUP 0 0 0 empty in
  extract_value "color" frame self = Raise IndexError
  /\ after_extract "color" frame self = self.
Proof.
  intros frame self.
  apply (few_channels_raise "color" frame self 0 0 [Scalar 10]).
  - reflexivity.
  - intros [Hk | Hk]; discriminate Hk.
  - intros [Hk | Hk]; discriminate Hk.
  - reflexivity.
  - reflexivity.
  - cbn. lia.
Defined.

(** Two spellings of one kind *)
Lemma preview_names_distinct_witness : Previews.depth_raw = Previews.depth_raw.
Proof. apply (preview_names_distinct Previews.depth_raw Previews.depth_raw). reflexivity. Defined.

(** An extraction for "left" does not touch the value of "color". *)
Lemma extract_value_other_names_witness :
  let self :=
    select_point "left" EVENT_LBUTTONUP 1 0 0
      (after_extract "color" Sample.bgr_1x2 (select_point "color" EVENT_LBUTTONUP 1 0 0 empty)) in
  values (after_extract "left" Sample.grey_2x3 self) !! "color" = values self !! "color".
Proof.
  intros self.
  apply (proj2 (extract_value_other_names "left" "color" Sample.grey_2x3 self)).
  discriminate.
Defined.

(** From (0, 0) with its value to (1, 0) *)
Lemma select_point_moves_selection_witness :
  let self :=
    after_extract "left" Sample.grey_2x3 (select_point "left" EVENT_LBUTTONUP 0 0 0 empty) in
  points (select_point "left" EVENT_LBUTTONUP 1 0 0 self) !! "left" = Some (1, 0)
  /\ values (select_point "left" EVENT_LBUTTONUP 1 0 0 self) = values self.
Proof.
  intros self.
  apply (select_point_moves_selection "left" 1 0 0 self). discriminate.
Defined.

(** A second release on (0, 0) *)
Lemma select_point_clears_selection_witness :
  let self :=
    after_extract "left" Sample.grey_2x3 (select_point "left" EVENT_LBUTTONUP 0 0 0 empty) in
  points (select_point "left" EVENT_LBUTTONUP 0 0 0 self) !! "left" = None
  /\ values (select_point "left" EVENT_LBUTTONUP 0 0 0 self) !! "left" = None.
Proof.
  intros self.
  apply (select_point_clears_selection "left" 0 0 0 self). reflexivity.
Defined.

End TrackerMore.
